(** * The AI-enhanced CI/CD pipeline of [main.py]: orchestration and gating

    A shallow embedding of [AICICDPipeline.run_pipeline] and of the Python
    operations it performs on the values it receives, followed by the
    properties of the orchestration: which collaborator operations a run
    invokes, what it records in the report and how it finishes.

    Conventions of the embedding.
    - Python values are the JSON-like values a report can hold ([value]).
    - A Python call either returns or raises ([outcome]).  [run_pipeline] is
      the method as it handles instances of [Exception], the ones
      [except Exception] catches; [run_pipeline_call] is what its caller gets,
      the report or an exception deriving only from [BaseException]
      (KeyboardInterrupt, SystemExit), which the handler lets through.
    - The five components built by [__init__] are one oracle
      ([collaborators]): a method and its arguments give the call's outcome.
      A collaborator does not mutate the objects it is handed.
    - The [results] dictionary is the mutable state of a run; it survives an
      exception.  Beside it the state keeps a log of the collaborator calls
      and of the assignments into the report ([event]). *)

From Stdlib Require Import ZArith QArith String List Bool Lia.
Import ListNotations.
Local Open Scope Z_scope.
Local Open Scope string_scope.
Local Open Scope list_scope.
Set Warnings "-register-all".

(** ** Python values *)

Inductive value : Type :=
| VNone
| VBool (b : bool)
| VInt (n : Z)
| VFloat (q : Q)                       (* a finite float, by its exact value *)
| VStr (s : string)
| VList (xs : list value)
| VDict (kvs : list (string * value)). (* insertion-ordered, keys are str *)

(** A [dict] keeps its keys in insertion order; assigning to a key that is
    present replaces the value where it stands. *)
Definition dict : Type := list (string * value).

Fixpoint dict_get (k : string) (d : dict) : option value :=
  match d with
  | [] => None
  | (k', v) :: d' => if String.eqb k k' then Some v else dict_get k d'
  end.

Fixpoint dict_set (k : string) (v : value) (d : dict) : dict :=
  match d with
  | [] => [(k, v)]
  | (k', v') :: d' =>
      if String.eqb k k' then (k', v) :: d' else (k', v') :: dict_set k v d'
  end.

Definition dict_values (d : dict) : list value := map snd d.

(** ** Exceptions and outcomes *)

(** An exception instance: its class and the text [str(e)] gives. *)
Record exn : Type := Exn { exn_class : string; exn_str : string }.

(** [str(KeyError('k'))] is the repr of the key, quotes included. *)
Definition KeyError (key : string) : exn := Exn "KeyError" ("'" ++ key ++ "'").
Definition TypeError (msg : string) : exn := Exn "TypeError" msg.
Definition AttributeError (msg : string) : exn := Exn "AttributeError" msg.

Inductive outcome (A : Type) : Type :=
| Ok (a : A)
| Raise (e : exn).
Arguments Ok {A} a.
Arguments Raise {A} e.

(** ** The Python operations [run_pipeline] applies to the values it gets *)

Definition type_name (v : value) : string :=
  match v with
  | VNone => "NoneType"
  | VBool _ => "bool"
  | VInt _ => "int"
  | VFloat _ => "float"
  | VStr _ => "str"
  | VList _ => "list"
  | VDict _ => "dict"
  end.

(** Truth value testing, as in [if iac_files:] and inside [all(...)]. *)
Definition truthy (v : value) : bool :=
  match v with
  | VNone => false
  | VBool b => b
  | VInt n => negb (n =? 0)%Z
  | VFloat q => negb (Qeq_bool q 0)
  | VStr s => negb (String.eqb s "")
  | VList xs => match xs with [] => false | _ => true end
  | VDict kvs => match kvs with [] => false | _ => true end
  end.

(** [len(v)] *)
Definition py_len (v : value) : outcome value :=
  match v with
  | VStr s => Ok (VInt (Z.of_nat (String.length s)))
  | VList xs => Ok (VInt (Z.of_nat (List.length xs)))
  | VDict kvs => Ok (VInt (Z.of_nat (List.length kvs)))
  | _ => Raise (TypeError ("object of type '" ++ type_name v ++ "' has no len()"))
  end.

(** [v[k]] for a string key [k]. *)
Definition getitem (v : value) (k : string) : outcome value :=
  match v with
  | VDict kvs =>
      match dict_get k kvs with
      | Some x => Ok x
      | None => Raise (KeyError k)
      end
  | VList _ => Raise (TypeError "list indices must be integers or slices, not str")
  | VStr _ => Raise (TypeError "string indices must be integers, not 'str'")
  | _ => Raise (TypeError ("'" ++ type_name v ++ "' object is not subscriptable"))
  end.

(** [v.get(k, default)]; only a dict has the method. *)
Definition get_default (v : value) (k : string) (default : value) : outcome value :=
  match v with
  | VDict kvs =>
      match dict_get k kvs with
      | Some x => Ok x
      | None => Ok default
      end
  | _ => Raise (AttributeError
                  ("'" ++ type_name v ++ "' object has no attribute 'get'"))
  end.

(** [v <= n] for an int literal [n]; bool is a subclass of int. *)
Definition le_int (v : value) (n : Z) : outcome bool :=
  match v with
  | VBool b => Ok (Z.b2z b <=? n)%Z
  | VInt m => Ok (m <=? n)%Z
  | VFloat q => Ok (Qle_bool q (inject_Z n))
  | _ => Raise (TypeError
                  ("'<=' not supported between instances of '"
                     ++ type_name v ++ "' and 'int'"))
  end.

(** [all(stage.get("passed", True) for stage in stages)]: the generator is
    consumed left to right and [all] stops at the first falsy element. *)
Fixpoint all_passed (stages : list value) : outcome bool :=
  match stages with
  | [] => Ok true
  | stage :: rest =>
      match get_default stage "passed" (VBool true) with
      | Ok p => if truthy p then all_passed rest else Ok false
      | Raise e => Raise e
      end
  end.

(** ** Collaborators, events and the state of a run *)

(** The operations of the components [__init__] creates:
    [code_analyzer], [security_scanner], [test_manager],
    [deployment_manager] and [ai_assistant]. *)
Inductive method : Type :=
| Analyze | GetRecentChanges | FindIacFiles        (* code_analyzer *)
| Scan                                             (* security_scanner *)
| RunTests                                         (* test_manager *)
| ValidateInfrastructure | CreateDeploymentPlan | Deploy (* deployment_manager *)
| GetCodeImprovements | AssessSecurityRisks | SuggestAdditionalTests
| AnalyzeInfrastructureChanges | AssessDeploymentRisks
| GenerateBuildSummary.                            (* ai_assistant *)

Definition method_eqb (a b : method) : bool :=
  match a, b with
  | Analyze, Analyze | GetRecentChanges, GetRecentChanges
  | FindIacFiles, FindIacFiles | Scan, Scan | RunTests, RunTests
  | ValidateInfrastructure, ValidateInfrastructure
  | CreateDeploymentPlan, CreateDeploymentPlan | Deploy, Deploy
  | GetCodeImprovements, GetCodeImprovements
  | AssessSecurityRisks, AssessSecurityRisks
  | SuggestAdditionalTests, SuggestAdditionalTests
  | AnalyzeInfrastructureChanges, AnalyzeInfrastructureChanges
  | AssessDeploymentRisks, AssessDeploymentRisks
  | GenerateBuildSummary, GenerateBuildSummary => true
  | _, _ => false
  end.

Definition collaborators : Type := method -> list value -> outcome value.

Inductive event : Type :=
| Call (m : method) (args : list value) (res : outcome value)
| SetStage (name : string) (entry : value)   (* results["stages"][name] = entry *)
| SetItem (key : string) (v : value).        (* results[key] = v *)

Record state : Type := State { results : dict; trace : list event }.

Definition log (e : event) (s : state) : state :=
  State (results s) (trace s ++ [e]).

(** [results[key] = v] *)
Definition store (key : string) (v : value) (s : state) : state :=
  State (dict_set key v (results s)) (trace s ++ [SetItem key v]).

(** How often method [m] was invoked. *)
Fixpoint calls (m : method) (tr : list event) : nat :=
  match tr with
  | [] => 0%nat
  | Call m' _ _ :: tr' => ((if method_eqb m m' then 1 else 0) + calls m tr')%nat
  | _ :: tr' => calls m tr'
  end.

(** The outcome of the first invocation of [m], if there was one. *)
Fixpoint returned (m : method) (tr : list event) : option (outcome value) :=
  match tr with
  | [] => None
  | Call m' _ r :: tr' => if method_eqb m m' then Some r else returned m tr'
  | _ :: tr' => returned m tr'
  end.

(** How often [results[key]] was assigned. *)
Fixpoint stores (key : string) (tr : list event) : nat :=
  match tr with
  | [] => 0%nat
  | SetItem k _ :: tr' => ((if String.eqb key k then 1 else 0) + stores key tr')%nat
  | _ :: tr' => stores key tr'
  end.

(** ** The monad of the [try] block: state, and an exception or a result *)

Definition M (A : Type) : Type := state -> outcome A * state.

Definition ret {A} (a : A) : M A := fun s => (Ok a, s).

Definition bind {A B} (c : M A) (f : A -> M B) : M B :=
  fun s =>
    match c s with
    | (Ok a, s') => f a s'
    | (Raise e, s') => (Raise e, s')
    end.

Definition lift {A} (o : outcome A) : M A := fun s => (o, s).

Declare Scope pipeline_scope.
Delimit Scope pipeline_scope with pipeline.
Notation "x <- c ;; k" := (bind c (fun x => k))
  (at level 61, c at next level, right associativity) : pipeline_scope.
Notation "c ;;; k" := (bind c (fun _ => k))
  (at level 61, right associativity) : pipeline_scope.
Local Open Scope pipeline_scope.

(** [results[key]] *)
Definition read (key : string) : M value :=
  fun s => (getitem (VDict (results s)) key, s).

(** [results["stages"][name] = entry] *)
Definition set_stage (name : string) (entry : value) : M unit :=
  fun s =>
    match getitem (VDict (results s)) "stages" with
    | Ok (VDict st) =>
        (Ok tt,
         State (dict_set "stages" (VDict (dict_set name entry st)) (results s))
               (trace s ++ [SetStage name entry]))
    | Ok other =>
        (Raise (TypeError ("'" ++ type_name other
                             ++ "' object does not support item assignment")), s)
    | Raise e => (Raise e, s)
    end.

(** ** The pipeline *)

Record AICICDPipeline : Type := Pipeline {
  repo_url : string;
  branch : string;
  aws_region : string;
  build_id : string
}.

(** [__init__]: [stamp] is [datetime.now().strftime('%Y%m%d-%H%M%S')]. *)
Definition init (repo_url branch aws_region stamp : string) : AICICDPipeline :=
  Pipeline repo_url branch aws_region ("build-" ++ stamp).

Section Run.

Variable env : collaborators.
(** The successive readings of [datetime.now().isoformat()] in this run. *)
Variable clock : nat -> string.
Variable self : AICICDPipeline.

Definition call (m : method) (args : list value) : M value :=
  fun s => let r := env m args in (r, log (Call m args r) s).

Definition clone_repository : string := "/tmp/repo-" ++ build_id self.

(** STAGE 1: static code analysis *)
Definition stage_code_analysis (repo_path : string) : M unit :=
  code_issues <- call Analyze [VStr repo_path] ;;
  ai_code_suggestions <- call GetCodeImprovements [code_issues] ;;
  issues_found <- lift (py_len code_issues) ;;
  set_stage "code_analysis"
    (VDict [("issues_found", issues_found);
            ("ai_suggestions", ai_code_suggestions)]).

(** STAGE 2: security scanning *)
Definition stage_security_scan (repo_path : string) : M unit :=
  security_findings <- call Scan [VStr repo_path] ;;
  ai_security_assessment <- call AssessSecurityRisks [security_findings] ;;
  vulnerabilities <- lift (py_len security_findings) ;;
  set_stage "security_scan"
    (VDict [("vulnerabilities", vulnerabilities);
            ("ai_risk_assessment", ai_security_assessment)]).

(** STAGE 3: tests *)
Definition stage_testing (repo_path : string) : M unit :=
  test_results <- call RunTests [VStr repo_path] ;;
  code_changes <- call GetRecentChanges [VStr repo_path] ;;
  ai_test_suggestions <-
    call SuggestAdditionalTests [code_changes; test_results] ;;
  passed <- lift (getitem test_results "passed") ;;
  failed <- lift (getitem test_results "failed") ;;
  coverage <- lift (getitem test_results "coverage") ;;
  set_stage "testing"
    (VDict [("passed", passed);
            ("failed", failed);
            ("coverage", coverage);
            ("ai_test_suggestions", ai_test_suggestions)]).

(** STAGE 4: infrastructure validation, only when IaC files were found *)
Definition stage_infrastructure (repo_path : string) : M unit :=
  iac_files <- call FindIacFiles [VStr repo_path] ;;
  if truthy iac_files then
    iac_validation <- call ValidateInfrastructure [iac_files] ;;
    ai_iac_analysis <- call AnalyzeInfrastructureChanges [iac_files] ;;
    valid <- lift (getitem iac_validation "valid") ;;
    errors <- lift (getitem iac_validation "errors") ;;
    set_stage "infrastructure_validation"
      (VDict [("valid", valid);
              ("errors", errors);
              ("ai_analysis", ai_iac_analysis)])
  else ret tt.

(** The condition of the [if] that guards stage 5. *)
Definition gate : M bool :=
  stages <- read "stages" ;;
  match stages with
  | VDict st => lift (all_passed (dict_values st))
  | other =>
      lift (Raise (AttributeError
                     ("'" ++ type_name other
                        ++ "' object has no attribute 'values'")))
  end.

(** STAGE 5: deployment behind the gate and the risk assessment *)
Definition stage_deployment (repo_path : string) : M unit :=
  ok <- gate ;;
  if ok : bool then
    deployment_plan <- call CreateDeploymentPlan [VStr repo_path] ;;
    stages <- read "stages" ;;
    testing <- lift (getitem stages "testing") ;;
    stages' <- read "stages" ;;
    infra <- lift (get_default stages' "infrastructure_validation" (VDict [])) ;;
    ai_deployment_risks <-
      call AssessDeploymentRisks [deployment_plan; testing; infra] ;;
    risk_level <- lift (getitem ai_deployment_risks "risk_level") ;;
    approved <- lift (le_int risk_level 3) ;;
    if approved : bool then
      deployment_result <- call Deploy [deployment_plan] ;;
      success <- lift (getitem deployment_result "success") ;;
      environment <- lift (getitem deployment_result "environment") ;;
      set_stage "deployment"
        (VDict [("success", success);
                ("environment", environment);
                ("ai_risk_assessment", ai_deployment_risks)])
    else
      set_stage "deployment"
        (VDict [("success", VBool false);
                ("halted_reason", VStr "High risk assessment");
                ("ai_risk_assessment", ai_deployment_risks)])
  else ret tt.

(** [results["ai_summary"] = self.ai_assistant.generate_build_summary(results)] *)
Definition final_summary : M unit :=
  fun s =>
    match call GenerateBuildSummary [VDict (results s)] s with
    | (Ok summary, s') => (Ok tt, store "ai_summary" summary s')
    | (Raise e, s') => (Raise e, s')
    end.

(** The body of the [try] statement. *)
Definition try_body : M unit :=
  let repo_path := clone_repository in
  stage_code_analysis repo_path ;;;
  stage_security_scan repo_path ;;;
  stage_testing repo_path ;;;
  stage_infrastructure repo_path ;;;
  stage_deployment repo_path ;;;
  final_summary.

(** The dictionary [results] starts as, before the [try]. *)
Definition initial_results : dict :=
  [("build_id", VStr (build_id self));
   ("repository", VStr (repo_url self));
   ("branch", VStr (branch self));
   ("started_at", VStr (clock 0%nat));
   ("stages", VDict [])].

Definition initial_state : state := State initial_results [].

(** [except Exception as e] / [else] / [finally] around the body. *)
Definition finish (r : outcome unit) (s : state) : state :=
  let s' :=
    match r with
    | Raise e => store "success" (VBool false) (store "error" (VStr (exn_str e)) s)
    | Ok _ => store "success" (VBool true) s
    end in
  store "completed_at" (VStr (clock 1%nat)) s'.

(** [run_pipeline]: the final state; its [results] is what the method returns. *)
Definition run_pipeline : state :=
  let (r, s) := try_body initial_state in finish r s.

End Run.

(** Reading a report. *)
Definition stage_entry (name : string) (report : dict) : option value :=
  match dict_get "stages" report with
  | Some (VDict st) => dict_get name st
  | _ => None
  end.

Definition stage_field (name key : string) (report : dict) : option value :=
  match stage_entry name report with
  | Some (VDict entry) => dict_get key entry
  | _ => None
  end.

(** ** Properties of the report that a computation keeps *)

(** [c] keeps the property [P] of the report, whether it returns or raises. *)
Definition keeps {A} (P : dict -> Prop) (c : M A) : Prop :=
  forall s, P (results s) -> P (results (snd (c s))).

(** [P] survives the two kinds of assignment made inside the [try] block. *)
Definition stable (P : dict -> Prop) : Prop :=
  (forall d st, P d -> P (dict_set "stages" (VDict st) d)) /\
  (forall d v, P d -> P (dict_set "ai_summary" v d)).

(** The report holds [v] under [key]. *)
Definition holds (key : string) (v : value) (d : dict) : Prop :=
  dict_get key d = Some v.

(** The report has its mapping of stages. *)
Definition has_stages (d : dict) : Prop :=
  exists st, dict_get "stages" d = Some (VDict st).

(** ** Comparing the reports of two runs *)

(** The keys whose values are the build identifier or a clock reading. *)
Definition volatile : list string := ["build_id"; "started_at"; "completed_at"].

(** [d] without the entries under [keys], order kept. *)
Definition without (keys : list string) (d : dict) : dict :=
  filter (fun kv => negb (existsb (String.eqb (fst kv)) keys)) d.

(** The operations whose one argument is [repo_path]. *)
Definition takes_path (m : method) : bool :=
  match m with
  | Analyze | GetRecentChanges | FindIacFiles | Scan | RunTests
  | CreateDeploymentPlan => true
  | _ => false
  end.

(** ** Test doubles

    Collaborators that answer with fixed outputs, whatever they are handed. *)

Module Doubles.

Definition demo : AICICDPipeline :=
  init "https://github.com/marqeta/example-service" "main" "us-west-2"
       "20240101-120000".

Definition demo_clock (n : nat) : string :=
  match n with
  | O => "2024-01-01T12:00:00.000000"
  | S _ => "2024-01-01T12:04:30.000000"
  end.

(** A clean repository without IaC files and a low deployment risk. *)
Definition clean : collaborators :=
  fun m _ =>
    match m with
    | Analyze => Ok (VList [])
    | GetCodeImprovements => Ok (VDict [("suggestions", VList [])])
    | Scan => Ok (VList [])
    | AssessSecurityRisks =>
        Ok (VDict [("risk_level", VInt 0);
                   ("analysis", VStr "No security issues found.")])
    | RunTests =>
        Ok (VDict [("passed", VInt 42); ("failed", VInt 0);
                   ("coverage", VFloat (9 # 10))])
    | GetRecentChanges => Ok (VDict [("files", VList [VStr "app.py"])])
    | SuggestAdditionalTests => Ok (VDict [("tests", VList [])])
    | FindIacFiles => Ok (VList [])
    | ValidateInfrastructure =>
        Ok (VDict [("valid", VBool true); ("errors", VList [])])
    | AnalyzeInfrastructureChanges => Ok (VDict [("findings", VList [])])
    | CreateDeploymentPlan => Ok (VDict [("steps", VList [VStr "rollout"])])
    | AssessDeploymentRisks => Ok (VDict [("risk_level", VInt 1)])
    | Deploy =>
        Ok (VDict [("success", VBool true); ("environment", VStr "staging")])
    | GenerateBuildSummary => Ok (VDict [("conclusion", VStr "All good")])
    end.

(** [env] with the outcome of method [m] replaced. *)
Definition answering (m : method) (r : outcome value) (env : collaborators)
  : collaborators :=
  fun m' args => if method_eqb m' m then r else env m' args.

Definition risk (n : Z) : outcome value := Ok (VDict [("risk_level", VInt n)]).

(** Two code issues, one vulnerability and a failing test, risk level 0. *)
Definition failing_stages : collaborators :=
  answering Analyze (Ok (VList [VStr "unused import"; VStr "bare except"]))
    (answering Scan (Ok (VList [VStr "CVE-2023-0001"]))
       (answering RunTests
          (Ok (VDict [("passed", VInt 41); ("failed", VInt 1);
                      ("coverage", VFloat (8 # 10))]))
          (answering AssessDeploymentRisks (risk 0) clean))).

(** No test passed. *)
Definition no_test_passed : collaborators :=
  answering RunTests
    (Ok (VDict [("passed", VInt 0); ("failed", VInt 3);
                ("coverage", VFloat (1 # 10))]))
    (answering AssessDeploymentRisks (risk 0) clean).

(** Analysis and tests pass, the scan has a finding, risk level 4. *)
Definition risky : collaborators :=
  answering Scan (Ok (VList [VStr "CVE-2023-0001"]))
    (answering AssessDeploymentRisks (risk 4) clean).

(** The risk assessment comes back without [risk_level]. *)
Definition malformed_risk : collaborators :=
  answering AssessDeploymentRisks
    (Ok (VDict [("analysis", VStr "looks fine")])) clean.

(** The summary call fails. *)
Definition summary_down : collaborators :=
  answering GenerateBuildSummary (Raise (Exn "TimeoutError" "LLM timed out")) clean.

(** The repository has a Terraform file. *)
Definition with_iac : collaborators :=
  answering FindIacFiles (Ok (VList [VStr "main.tf"])) clean.

End Doubles.

(** ** Reading the log and the shape of a report *)

(** The arguments of the first invocation of [m], if there was one. *)
Fixpoint arguments (m : method) (tr : list event) : option (list value) :=
  match tr with
  | [] => None
  | Call m' args _ :: tr' => if method_eqb m m' then Some args else arguments m tr'
  | _ :: tr' => arguments m tr'
  end.


(** The keys of a dictionary, in insertion order. *)
Definition keys (d : dict) : list string := map fst d.

(** The names of the stages a report has entries for, in insertion order. *)
Definition stage_names (report : dict) : list string :=
  match dict_get "stages" report with
  | Some (VDict st) => keys st
  | _ => []
  end.

(** ** The assistant defined in [main.py]

    [class AIAssistant] is bound at module level after the import of the same
    name, so it is the class [__init__] instantiates.  Its prompts feed the
    logger and the placeholder [_call_llm] only; [json.dumps], which two
    prompt builders apply, is a parameter. *)

Module AIAssistant.

Section Prompts.

Variable json_dumps : value -> string.

Definition _call_llm (prompt : string) : string :=
  "AI analysis complete. See structured response for details.".

Definition _build_code_improvement_prompt (code_issues : value) : string :=
  "Analyze these code issues and suggest improvements: " ++ json_dumps code_issues.

Definition _parse_code_suggestions (response : string) : value :=
  VDict [("suggestions",
          VList [VStr "Implement error handling for API calls";
                 VStr "Add input validation"])].

Definition _build_security_assessment_prompt (security_findings : value) : string :=
  "Assess these security findings and prioritize risks: "
    ++ json_dumps security_findings.

Definition _parse_security_assessment (response : string) : value :=
  VDict [("risk_level", VInt 2);
         ("critical_issues", VInt 0);
         ("high_issues", VInt 1);
         ("medium_issues", VInt 3);
         ("analysis",
          VStr "One high-priority dependency vulnerability requires immediate attention.")].

Definition get_code_improvements (code_issues : value) : outcome value :=
  if negb (truthy code_issues) then Ok (VDict [("suggestions", VList [])])
  else
    let prompt := _build_code_improvement_prompt code_issues in
    let response := _call_llm prompt in
    Ok (_parse_code_suggestions response).

Definition assess_security_risks (security_findings : value) : outcome value :=
  if negb (truthy security_findings) then
    Ok (VDict [("risk_level", VInt 0);
               ("analysis", VStr "No security issues found.")])
  else
    let prompt := _build_security_assessment_prompt security_findings in
    let response := _call_llm prompt in
    Ok (_parse_security_assessment response).

(** Looking up a method the class does not define. *)
Definition no_attribute (name : string) : exn :=
  AttributeError ("'AIAssistant' object has no attribute '" ++ name ++ "'").

(** The four remaining methods start by calling a prompt builder that the
    class does not have. *)
Definition suggest_additional_tests (code_changes test_results : value)
  : outcome value :=
  Raise (no_attribute "_build_test_suggestion_prompt").

Definition analyze_infrastructure_changes (iac_files : value) : outcome value :=
  Raise (no_attribute "_build_iac_analysis_prompt").

Definition assess_deployment_risks (deployment_plan test_results iac_validation : value)
  : outcome value :=
  Raise (no_attribute "_build_deployment_risk_prompt").

Definition generate_build_summary (pipeline_results : value) : outcome value :=
  Raise (no_attribute "_build_summary_prompt").

(** The collaborators of a pipeline as [__init__] builds it: the assistant is
    the class above, the four other components are [components]. *)
Definition shipped (components : collaborators) : collaborators :=
  fun m args =>
    match m, args with
    | GetCodeImprovements, [code_issues] => get_code_improvements code_issues
    | AssessSecurityRisks, [security_findings] =>
        assess_security_risks security_findings
    | SuggestAdditionalTests, [code_changes; test_results] =>
        suggest_additional_tests code_changes test_results
    | AnalyzeInfrastructureChanges, [iac_files] =>
        analyze_infrastructure_changes iac_files
    | AssessDeploymentRisks, [deployment_plan; test_results; iac_validation] =>
        assess_deployment_risks deployment_plan test_results iac_validation
    | GenerateBuildSummary, [pipeline_results] =>
        generate_build_summary pipeline_results
    | _, _ => components m args
    end.

End Prompts.

End AIAssistant.

(** ** The script at the end of [main.py] *)

(** ['SUCCESS' if results['success'] else 'FAILED'], with the marks the
    script prints. *)
Definition main_verdict (results : dict) : outcome string :=
  match getitem (VDict results) "success" with
  | Ok success => Ok (if truthy success then "✅ SUCCESS" else "❌ FAILED")
  | Raise e => Raise e
  end.

(** [results.get('ai_summary', {}).get('conclusion', 'No summary available')],
    the value the second [print] formats. *)
Definition main_summary (results : dict) : outcome value :=
  match get_default (VDict results) "ai_summary" (VDict []) with
  | Ok summary => get_default summary "conclusion" (VStr "No summary available")
  | Raise e => Raise e
  end.

(** ** More test doubles *)

Module Scenarios.


(** IaC files are present and their validation reports errors. *)
Definition invalid_infrastructure : collaborators :=
  Doubles.answering ValidateInfrastructure
    (Ok (VDict [("valid", VBool false);
                ("errors", VList [VStr "unknown resource type"])]))
    Doubles.with_iac.

(** The risk assessment gives its level as text. *)
Definition textual_risk : collaborators :=
  Doubles.answering AssessDeploymentRisks
    (Ok (VDict [("risk_level", VStr "low")])) Doubles.clean.

(** Components that find one issue and one vulnerability. *)
Definition components : collaborators :=
  Doubles.answering Analyze (Ok (VList [VStr "unused import"]))
    (Doubles.answering Scan (Ok (VList [VStr "CVE-2023-0001"])) Doubles.clean).

(** The summary comes back as plain text. *)
Definition plain_summary : collaborators :=
  Doubles.answering GenerateBuildSummary (Ok (VStr "All stages passed."))
    Doubles.clean.

(** A serializer stand-in for the prompts. *)
Definition dumps (v : value) : string := type_name v.

End Scenarios.

(** What the gate's generator yields for one stage entry, as a truth value. *)
Definition entry_passes (entry : dict) : bool :=
  match dict_get "passed" entry with
  | Some p => truthy p
  | None => true
  end.

(** The values Python compares with an int. *)
Definition numeric (v : value) : bool :=
  match v with
  | VBool _ | VInt _ | VFloat _ => true
  | _ => false
  end.

(** The entries assigned to [results["stages"][name]], oldest first. *)
Fixpoint stage_writes (name : string) (tr : list event) : list value :=
  match tr with
  | [] => []
  | SetStage name' entry :: tr' =>
      if String.eqb name name' then entry :: stage_writes name tr'
      else stage_writes name tr'
  | _ :: tr' => stage_writes name tr'
  end.

(** ** What the caller of [run_pipeline] gets

    [except Exception] catches the instances of [Exception].  An exception of
    a class that derives from [BaseException] only passes the handler: the
    [finally] clause runs, the [return] is not reached and the exception
    reaches the caller.  A class is known by its name; classes other than the
    builtin ones below are taken to derive from [Exception]. *)

Definition base_only : list string :=
  ["BaseException"; "BaseExceptionGroup"; "GeneratorExit"; "KeyboardInterrupt";
   "SystemExit"; "CancelledError"].

Definition is_exception (e : exn) : bool :=
  negb (existsb (String.eqb (exn_class e)) base_only).

(** The outcome of the method for its caller, the report or the exception that
    escapes, with the final state. *)
Definition run_pipeline_call (env : collaborators) (clock : nat -> string)
  (self : AICICDPipeline) : outcome dict * state :=
  let (r, s) := try_body env self (initial_state clock self) in
  match r with
  | Ok _ => let s' := finish clock r s in (Ok (results s'), s')
  | Raise e =>
      if is_exception e then
        let s' := finish clock r s in (Ok (results s'), s')
      else (Raise e, store "completed_at" (VStr (clock 1%nat)) s)
  end.

Module Interruptions.

(** The operator interrupts the run during the security scan. *)
Definition interrupted : collaborators :=
  Doubles.answering Scan (Raise (Exn "KeyboardInterrupt" "")) Doubles.clean.


(** [deploy] fails. *)
Definition deploy_down : collaborators :=
  Doubles.answering Deploy (Raise (Exn "RuntimeError" "rollout failed"))
    Doubles.clean.

End Interruptions.

(** ** Symbolic execution of a run

    The Python operations fire when their argument is known, the monad's
    operations when they are applied to a state; what remains stuck is a call
    of a collaborator or an operation on a value a collaborator returned, and
    a proof splits on its outcome. *)

Arguments getitem !v k /.
Arguments get_default !v k default /.
Arguments py_len !v /.
Arguments le_int !v n /.
Arguments truthy !v /.
Arguments bind {A B} c f s /.
Arguments ret {A} a s /.
Arguments lift {A} o s /.
Arguments call env m args s /.
Arguments read key s /.
Arguments set_stage name entry s /.
Arguments final_summary env s /.
Arguments log e s /.
Arguments store key v s /.
Arguments finish clock r s /.
Arguments clone_repository : simpl never.

Ltac unfold_run E :=
  unfold run_pipeline, try_body, stage_code_analysis, stage_security_scan,
    stage_testing, stage_infrastructure, stage_deployment, gate,
    initial_state, initial_results in E.

Ltac split_next E :=
  cbn in E;
  match type of E with
  | context [match (if ?b then _ else _) with Ok _ => _ | Raise _ => _ end] =>
      destruct b eqn:?
  | context [match ?X with Ok _ => _ | Raise _ => _ end] => destruct X eqn:?
  | context [if ?b then _ else _] => destruct b eqn:?
  end.

(** From [E : run_pipeline env clock self = State rep tr] to one goal per path
    through the method, with [rep] and [tr] replaced by what the path built. *)
Ltac run_cases E :=
  unfold_run E; repeat split_next E; cbn in E; injection E as <- <-.

Ltac same_outcome :=
  repeat match goal with
    | H : Some _ = Some _ |- _ => injection H as H
    | H : Ok _ = Ok _ |- _ => injection H as H
    | H : Raise _ = Raise _ |- _ => injection H as H
    | H : VInt _ = VInt _ |- _ => injection H as H
    | H : VDict _ = VDict _ |- _ => injection H as H
    | H : ?x = ?y |- _ => first [ subst x | subst y ]
    end.

Ltac close_path :=
  cbn; intros; try discriminate; same_outcome;
  repeat match goal with
    | H : ?x = _, H' : ?x = _ |- _ => rewrite H in H'
    end;
  cbn in *; same_outcome; try discriminate; try congruence.

(** ** One invocation per operation *)

(** X18: no path through [run_pipeline] invokes an operation twice, so
    [returned] speaks of the one invocation there can be. *)
Lemma each_operation_at_most_once env clock self (m : method) :
  (calls m (trace (run_pipeline env clock self)) <= 1)%nat.
Proof.
  destruct (run_pipeline env clock self) as [rep tr] eqn:E.
  run_cases E; destruct m; cbn; lia.
Qed.

(** ** What the gate lets through *)

Lemma le_int_above (n : Z) : 3 < n -> le_int (VInt n) 3 = Ok false.
Proof. intros H. cbn. f_equal. apply Z.leb_gt. exact H. Qed.


(** When the comparison [risk_level <= 3] is false the run takes the [else]
    branch: the halt is recorded and [deploy] is not reached. *)
Lemma halted_when_not_approved env clock self a v :
  returned AssessDeploymentRisks (trace (run_pipeline env clock self)) = Some (Ok a) ->
  getitem a "risk_level" = Ok v ->
  le_int v 3 = Ok false ->
  calls Deploy (trace (run_pipeline env clock self)) = 0%nat /\
  stage_entry "deployment" (results (run_pipeline env clock self)) =
    Some (VDict [("success", VBool false);
                 ("halted_reason", VStr "High risk assessment");
                 ("ai_risk_assessment", a)]).
Proof.
  intros Hret Hrisk Hle. revert Hret.
  destruct (run_pipeline env clock self) as [rep tr] eqn:E.
  run_cases E; close_path; auto.
Qed.


(** When [ai_deployment_risks["risk_level"]] raises, the exception ends the
    [try] block before either branch. *)
Lemma blocked_when_risk_unreadable env clock self a e :
  returned AssessDeploymentRisks (trace (run_pipeline env clock self)) = Some (Ok a) ->
  getitem a "risk_level" = Raise e ->
  calls Deploy (trace (run_pipeline env clock self)) = 0%nat /\
  stage_entry "deployment" (results (run_pipeline env clock self)) = None /\
  dict_get "error" (results (run_pipeline env clock self)) = Some (VStr (exn_str e)) /\
  dict_get "success" (results (run_pipeline env clock self)) = Some (VBool false).
Proof.
  intros Hret Hrisk. revert Hret.
  destruct (run_pipeline env clock self) as [rep tr] eqn:E.
  run_cases E; close_path; auto.
Qed.

Lemma getitem_missing (d : dict) (k : string) :
  dict_get k d = None -> getitem (VDict d) k = Raise (KeyError k).
Proof. intros H. cbn. rewrite H. reflexivity. Qed.

(** ** The deployment gate *)

(** C1 as stated fails: a run whose analysis reports two issues, whose scan
    reports a vulnerability and whose test suite has a failing test, with a
    risk level of 0, invokes [deploy]. *)
Lemma failed_stages_do_not_block_deployment :
  let run := run_pipeline Doubles.failing_stages Doubles.demo_clock Doubles.demo in
  stage_field "code_analysis" "issues_found" (results run) = Some (VInt 2) /\
  stage_field "security_scan" "vulnerabilities" (results run) = Some (VInt 1) /\
  stage_field "testing" "failed" (results run) = Some (VInt 1) /\
  returned AssessDeploymentRisks (trace run) = Some (Doubles.risk 0) /\
  calls Deploy (trace run) = 1%nat.
Proof. vm_compute. repeat split. Qed.

(** C1, amended: the gate reads the ["passed"] entries of the recorded
    stages, and the testing stage is the one that records such an entry.  When
    [test_results["passed"]] is falsy no deployment plan is created, no risk
    assessment is requested and [deploy] is not invoked, whatever risk level
    the assistant would have reported; the report has no deployment entry. *)
Theorem gate_closed_blocks_deployment env clock self t p :
  returned RunTests (trace (run_pipeline env clock self)) = Some (Ok t) ->
  getitem t "passed" = Ok p ->
  truthy p = false ->
  calls CreateDeploymentPlan (trace (run_pipeline env clock self)) = 0%nat /\
  calls AssessDeploymentRisks (trace (run_pipeline env clock self)) = 0%nat /\
  calls Deploy (trace (run_pipeline env clock self)) = 0%nat /\
  stage_entry "deployment" (results (run_pipeline env clock self)) = None.
Proof.
  intros Hret Hpassed Hfalsy. revert Hret.
  destruct (run_pipeline env clock self) as [rep tr] eqn:E.
  run_cases E; close_path; auto.
Qed.

Lemma gate_closed_blocks_deployment_witness :
  let run := run_pipeline Doubles.no_test_passed Doubles.demo_clock Doubles.demo in
  calls CreateDeploymentPlan (trace run) = 0%nat /\
  calls AssessDeploymentRisks (trace run) = 0%nat /\
  calls Deploy (trace run) = 0%nat /\
  stage_entry "deployment" (results run) = None.
Proof.
  apply (gate_closed_blocks_deployment
           Doubles.no_test_passed Doubles.demo_clock Doubles.demo
           (VDict [("passed", VInt 0); ("failed", VInt 3);
                   ("coverage", VFloat (1 # 10))])
           (VInt 0)); reflexivity.
Defined.

(** C2: when the risk assessment obtained at the gate has a risk level above
    3, [deploy] is not invoked and the deployment entry records
    [success = False] with the halt reason. *)
Theorem high_risk_halts_deployment env clock self a n :
  returned AssessDeploymentRisks (trace (run_pipeline env clock self)) = Some (Ok a) ->
  getitem a "risk_level" = Ok (VInt n) ->
  3 < n ->
  calls Deploy (trace (run_pipeline env clock self)) = 0%nat /\
  stage_entry "deployment" (results (run_pipeline env clock self)) =
    Some (VDict [("success", VBool false);
                 ("halted_reason", VStr "High risk assessment");
                 ("ai_risk_assessment", a)]).
Proof.
  intros Hret Hrisk Hn.
  exact (halted_when_not_approved env clock self a (VInt n) Hret Hrisk
           (le_int_above n Hn)).
Qed.

Lemma high_risk_halts_deployment_witness :
  let run := run_pipeline Doubles.risky Doubles.demo_clock Doubles.demo in
  calls Deploy (trace run) = 0%nat /\
  stage_entry "deployment" (results run) =
    Some (VDict [("success", VBool false);
                 ("halted_reason", VStr "High risk assessment");
                 ("ai_risk_assessment", VDict [("risk_level", VInt 4)])]).
Proof.
  apply (high_risk_halts_deployment
           Doubles.risky Doubles.demo_clock Doubles.demo
           (VDict [("risk_level", VInt 4)]) 4);
    [reflexivity | reflexivity | lia].
Defined.

(** C3: a risk assessment without the [risk_level] field blocks the
    deployment.  [deploy] is not invoked, no deployment entry is recorded (no
    risk value is made up), and the report carries the KeyError on the missing
    field as its error, with [success = False]. *)
Theorem missing_risk_level_blocks_deployment env clock self d :
  returned AssessDeploymentRisks (trace (run_pipeline env clock self))
    = Some (Ok (VDict d)) ->
  dict_get "risk_level" d = None ->
  calls Deploy (trace (run_pipeline env clock self)) = 0%nat /\
  stage_entry "deployment" (results (run_pipeline env clock self)) = None /\
  dict_get "error" (results (run_pipeline env clock self))
    = Some (VStr "'risk_level'") /\
  dict_get "success" (results (run_pipeline env clock self)) = Some (VBool false).
Proof.
  intros Hret Hmissing.
  exact (blocked_when_risk_unreadable env clock self (VDict d)
           (KeyError "risk_level") Hret (getitem_missing d "risk_level" Hmissing)).
Qed.

Lemma missing_risk_level_blocks_deployment_witness :
  let run := run_pipeline Doubles.malformed_risk Doubles.demo_clock Doubles.demo in
  calls Deploy (trace run) = 0%nat /\
  stage_entry "deployment" (results run) = None /\
  dict_get "error" (results run) = Some (VStr "'risk_level'") /\
  dict_get "success" (results run) = Some (VBool false).
Proof.
  apply (missing_risk_level_blocks_deployment
           Doubles.malformed_risk Doubles.demo_clock Doubles.demo
           [("analysis", VStr "looks fine")]); reflexivity.
Defined.





(** C6 as stated fails: analysis and tests pass, the scan has a finding and
    the risk level is 4; the halt is recorded in the deployment entry, and the
    run's own [success] is [True]. *)
Lemma risk_halt_leaves_run_successful :
  let run := run_pipeline Doubles.risky Doubles.demo_clock Doubles.demo in
  stage_field "code_analysis" "issues_found" (results run) = Some (VInt 0) /\
  stage_field "testing" "failed" (results run) = Some (VInt 0) /\
  stage_field "security_scan" "vulnerabilities" (results run) = Some (VInt 1) /\
  returned AssessDeploymentRisks (trace run) = Some (Doubles.risk 4) /\
  stage_field "deployment" "halted_reason" (results run)
    = Some (VStr "High risk assessment") /\
  dict_get "success" (results run) = Some (VBool true).
Proof. vm_compute. repeat split. Qed.

(** C6, amended: with a risk level of 4 the deployment entry records
    [success = False] and the halt reason, and once the summary call has
    returned the run's [success] is [True] and no error is recorded: the halt
    is an outcome of the deployment stage, not a failure of the run. *)
Theorem risk_halt_recorded_run_succeeds env clock self a summary :
  returned AssessDeploymentRisks (trace (run_pipeline env clock self)) = Some (Ok a) ->
  getitem a "risk_level" = Ok (VInt 4) ->
  returned GenerateBuildSummary (trace (run_pipeline env clock self))
    = Some (Ok summary) ->
  stage_entry "deployment" (results (run_pipeline env clock self)) =
    Some (VDict [("success", VBool false);
                 ("halted_reason", VStr "High risk assessment");
                 ("ai_risk_assessment", a)]) /\
  dict_get "success" (results (run_pipeline env clock self)) = Some (VBool true) /\
  dict_get "error" (results (run_pipeline env clock self)) = None.
Proof.
  intros Hret Hrisk. revert Hret.
  destruct (run_pipeline env clock self) as [rep tr] eqn:E.
  run_cases E; close_path; auto.
Qed.

Lemma risk_halt_recorded_run_succeeds_witness :
  let run := run_pipeline Doubles.risky Doubles.demo_clock Doubles.demo in
  stage_entry "deployment" (results run) =
    Some (VDict [("success", VBool false);
                 ("halted_reason", VStr "High risk assessment");
                 ("ai_risk_assessment", VDict [("risk_level", VInt 4)])]) /\
  dict_get "success" (results run) = Some (VBool true) /\
  dict_get "error" (results run) = None.
Proof.
  apply (risk_halt_recorded_run_succeeds
           Doubles.risky Doubles.demo_clock Doubles.demo
           (VDict [("risk_level", VInt 4)])
           (VDict [("conclusion", VStr "All good")])); reflexivity.
Defined.

(** ** Infrastructure validation *)

(** C7 as stated fails in its first half: without IaC files the report has no
    entry for the infrastructure validation at all, hence none that records a
    skipped outcome. *)
Lemma no_iac_files_no_entry :
  let run := run_pipeline Doubles.clean Doubles.demo_clock Doubles.demo in
  returned FindIacFiles (trace run) = Some (Ok (VList [])) /\
  stage_entry "infrastructure_validation" (results run) = None.
Proof. vm_compute. split; reflexivity. Qed.

(** C7, amended: when no IaC files are found the stage is left out of the
    report, and neither the validation nor the assistant's infrastructure
    analysis is invoked. *)
Theorem no_iac_files_skips_infrastructure env clock self files :
  returned FindIacFiles (trace (run_pipeline env clock self)) = Some (Ok files) ->
  truthy files = false ->
  stage_entry "infrastructure_validation" (results (run_pipeline env clock self))
    = None /\
  calls ValidateInfrastructure (trace (run_pipeline env clock self)) = 0%nat /\
  calls AnalyzeInfrastructureChanges (trace (run_pipeline env clock self)) = 0%nat.
Proof.
  intros Hret Hnone. revert Hret.
  destruct (run_pipeline env clock self) as [rep tr] eqn:E.
  run_cases E; close_path; auto.
Qed.

Lemma no_iac_files_skips_infrastructure_witness :
  let run := run_pipeline Doubles.clean Doubles.demo_clock Doubles.demo in
  stage_entry "infrastructure_validation" (results run) = None /\
  calls ValidateInfrastructure (trace run) = 0%nat /\
  calls AnalyzeInfrastructureChanges (trace run) = 0%nat.
Proof.
  apply (no_iac_files_skips_infrastructure
           Doubles.clean Doubles.demo_clock Doubles.demo (VList []));
    reflexivity.
Defined.

(** ** The summary *)




(** ** Finalization *)

Ltac raised_call :=
  cbn; intros;
  repeat match goal with
    | H : _ \/ _ |- _ => destruct H as [H | H]
    | H : False |- _ => contradiction H
    | H : Call _ _ _ = Call _ _ _ |- _ => injection H as H
    | H : SetStage _ _ = Call _ _ _ |- _ => discriminate H
    | H : SetItem _ _ = Call _ _ _ |- _ => discriminate H
    end;
  same_outcome; try discriminate; auto.

(** ** Exceptions the handler does not catch *)

(** The exceptions raised by the operations on values are instances of
    [Exception]. *)
Lemma py_len_raises_exception v e : py_len v = Raise e -> is_exception e = true.
Proof. destruct v; simpl; intros H; try discriminate; injection H as <-; reflexivity. Qed.

Lemma getitem_raises_exception v k e :
  getitem v k = Raise e -> is_exception e = true.
Proof.
  destruct v; simpl; intros H; try (injection H as <-; reflexivity).
  destruct (dict_get k kvs); [discriminate | injection H as <-; reflexivity].
Qed.

Lemma le_int_raises_exception v n e : le_int v n = Raise e -> is_exception e = true.
Proof. destruct v; simpl; intros H; try discriminate; injection H as <-; reflexivity. Qed.

Ltac own_exception :=
  match goal with
  | H : py_len _ = Raise ?e |- _ => pose proof (py_len_raises_exception _ _ H)
  | H : getitem _ _ = Raise ?e |- _ => pose proof (getitem_raises_exception _ _ _ H)
  | H : le_int _ _ = Raise ?e |- _ => pose proof (le_int_raises_exception _ _ _ H)
  end.

(** C4 as stated fails: a KeyboardInterrupt raised while the scanner runs is
    not an [Exception]; it reaches the caller of [run_pipeline], no report is
    returned and [success] is never assigned. *)
Lemma interrupt_reaches_the_caller :
  let call :=
    run_pipeline_call Interruptions.interrupted Doubles.demo_clock Doubles.demo in
  fst call = Raise (Exn "KeyboardInterrupt" "") /\
  dict_get "success" (results (snd call)) = None /\
  dict_get "error" (results (snd call)) = None /\
  dict_get "completed_at" (results (snd call))
    = Some (VStr (Doubles.demo_clock 1%nat)).
Proof. vm_compute. repeat split. Qed.

(** C4, amended: [completed_at] is assigned once on every path.  When the
    [try] block ends normally or with an instance of [Exception], the method
    returns the report, [success] is assigned once and is a boolean ([True]
    without an error, [False] with the text of the exception as the error);
    every collaborator call that raised an [Exception] is captured this way.
    An exception that is not an [Exception] comes from a collaborator and
    reaches the caller with [success] unset.  So a run whose collaborators
    raise instances of [Exception] only always returns a finalized report. *)
Theorem run_pipeline_call_finalizes env clock self :
  let body := fst (try_body env self (initial_state clock self)) in
  let call := run_pipeline_call env clock self in
  let report := results (snd call) in
  let log := trace (snd call) in
  stores "completed_at" log = 1%nat /\
  dict_get "completed_at" report = Some (VStr (clock 1%nat)) /\
  match body with
  | Ok _ =>
      fst call = Ok report /\
      stores "success" log = 1%nat /\
      dict_get "success" report = Some (VBool true) /\
      dict_get "error" report = None
  | Raise e =>
      if is_exception e then
        fst call = Ok report /\
        stores "success" log = 1%nat /\
        dict_get "success" report = Some (VBool false) /\
        dict_get "error" report = Some (VStr (exn_str e))
      else
        fst call = Raise e /\
        stores "success" log = 0%nat /\
        dict_get "success" report = None /\
        exists m args, In (Call m args (Raise e)) log
  end /\
  (forall m args e,
     In (Call m args (Raise e)) log ->
     is_exception e = true ->
     fst call = Ok report /\
     dict_get "success" report = Some (VBool false) /\
     dict_get "error" report = Some (VStr (exn_str e))) /\
  ((forall m args e, env m args = Raise e -> is_exception e = true) ->
   exists ok,
     fst call = Ok report /\ dict_get "success" report = Some (VBool ok)).
Proof.
  cbv zeta.
  destruct (run_pipeline_call env clock self) as [out fin] eqn:C.
  unfold run_pipeline_call in C.
  destruct (try_body env self (initial_state clock self)) as [r s] eqn:E.
  unfold try_body, stage_code_analysis, stage_security_scan, stage_testing,
    stage_infrastructure, stage_deployment, gate, initial_state,
    initial_results in E.
  repeat split_next E; cbn in E; injection E as <- <-.
  all: try own_exception.
  all: repeat match type of C with
      | context [is_exception ?e] =>
          first [ match goal with H : is_exception e = _ |- _ => rewrite H in C end
                | destruct (is_exception e) eqn:? ]
      end;
    cbn in C; injection C as <- <-.
  all: cbn;
    repeat match goal with
      | H : is_exception ?e = _ |- context [is_exception ?e] => rewrite H
      end.
  all: repeat match goal with |- _ /\ _ => split end; try reflexivity.
  all: try (do 2 eexists; cbn; tauto).
  all: try (intros Hall; eexists; split; reflexivity).
  all: try (intros Hall;
            match goal with
            | H : _ ?m ?a = Raise ?e, H' : is_exception ?e = false |- _ =>
                rewrite (Hall m a e H) in H'; discriminate H'
            end).
  all: raised_call; try congruence.
Qed.

(** When nothing escapes the handler, the caller gets the report of
    [run_pipeline]. *)
Lemma run_pipeline_call_agrees env clock self :
  match fst (try_body env self (initial_state clock self)) with
  | Ok _ => True
  | Raise e => is_exception e = true
  end ->
  run_pipeline_call env clock self
  = (Ok (results (run_pipeline env clock self)), run_pipeline env clock self).
Proof.
  unfold run_pipeline_call, run_pipeline.
  destruct (try_body env self (initial_state clock self)) as [[u | e] s];
    simpl; intros H; [reflexivity | rewrite H; reflexivity].
Qed.

(** ** The identity of the report *)

Lemma dict_get_set_same (k : string) (v : value) (d : dict) :
  dict_get k (dict_set k v d) = Some v.
Proof.
  induction d as [| [k' v'] d IH]; simpl.
  - rewrite String.eqb_refl. reflexivity.
  - destruct (String.eqb k k') eqn:Hk; simpl; rewrite Hk; [reflexivity | exact IH].
Qed.

Lemma dict_get_set_other (k k' : string) (v : value) (d : dict) :
  k <> k' -> dict_get k (dict_set k' v d) = dict_get k d.
Proof.
  intros Hne. induction d as [| [k0 v0] d IH]; simpl.
  - destruct (String.eqb_spec k k'); [contradiction | reflexivity].
  - destruct (String.eqb_spec k' k0) as [-> | Hk0]; simpl.
    + destruct (String.eqb_spec k k0); [contradiction | reflexivity].
    + destruct (String.eqb_spec k k0); [reflexivity | exact IH].
Qed.

Lemma holds_stable (key : string) (v : value) :
  key <> "stages" -> key <> "ai_summary" -> stable (holds key v).
Proof.
  intros Hs Ha. split; intros d x H; unfold holds in *.
  - rewrite dict_get_set_other by exact Hs. exact H.
  - rewrite dict_get_set_other by exact Ha. exact H.
Qed.

Lemma has_stages_stable : stable has_stages.
Proof.
  split.
  - intros d st _. exists st. apply dict_get_set_same.
  - intros d v [st H]. exists st.
    rewrite dict_get_set_other by discriminate. exact H.
Qed.

Section Keeps.

Variable P : dict -> Prop.
Hypothesis P_stable : stable P.

Lemma keeps_ret {A} (a : A) : keeps P (ret a).
Proof. intros s H. exact H. Qed.

Lemma keeps_lift {A} (o : outcome A) : keeps P (lift o).
Proof. intros s H. exact H. Qed.

Lemma keeps_read (key : string) : keeps P (read key).
Proof. intros s H. exact H. Qed.

Lemma keeps_call env m args : keeps P (call env m args).
Proof. intros s H. exact H. Qed.

Lemma keeps_bind {A B} (c : M A) (f : A -> M B) :
  keeps P c -> (forall a, keeps P (f a)) -> keeps P (bind c f).
Proof.
  intros Hc Hf s H. unfold bind.
  specialize (Hc s H). destruct (c s) as [[a | e] s']; simpl in Hc.
  - apply Hf. exact Hc.
  - exact Hc.
Qed.

Lemma keeps_set_stage name entry : keeps P (set_stage name entry).
Proof.
  intros s H. unfold set_stage.
  destruct (getitem (VDict (results s)) "stages") as [[] | e]; simpl;
    try exact H.
  apply P_stable. exact H.
Qed.

Lemma keeps_final_summary env : keeps P (final_summary env).
Proof.
  intros s H. unfold final_summary, call.
  destruct (env GenerateBuildSummary [VDict (results s)]); simpl.
  - apply P_stable. exact H.
  - exact H.
Qed.

Lemma keeps_gate : keeps P gate.
Proof.
  unfold gate. apply keeps_bind; [apply keeps_read | ].
  intros []; apply keeps_lift.
Qed.

Ltac keeps_steps :=
  repeat first
    [ apply keeps_ret | apply keeps_lift | apply keeps_read | apply keeps_call
    | apply keeps_set_stage | apply keeps_gate | apply keeps_final_summary
    | apply keeps_bind; [ | intros ? ]
    | match goal with |- keeps _ (if ?b then _ else _) => destruct b end ].

Lemma keeps_try_body env self : keeps P (try_body env self).
Proof.
  unfold try_body, stage_code_analysis, stage_security_scan, stage_testing,
    stage_infrastructure, stage_deployment.
  keeps_steps.
Qed.

End Keeps.

Lemma finish_keeps clock (key : string) (v : value) (r : outcome unit) (s : state) :
  key <> "error" -> key <> "success" -> key <> "completed_at" ->
  holds key v (results s) -> holds key v (results (finish clock r s)).
Proof.
  intros He Hs Hc H. unfold holds, finish, store in *.
  destruct r; simpl; repeat rewrite dict_get_set_other by assumption; exact H.
Qed.

Lemma finish_keeps_stages clock (r : outcome unit) (s : state) :
  has_stages (results s) -> has_stages (results (finish clock r s)).
Proof.
  intros [st H]. exists st. apply finish_keeps; try discriminate. exact H.
Qed.

Lemma finish_sets clock (r : outcome unit) (s : state) :
  dict_get "completed_at" (results (finish clock r s)) = Some (VStr (clock 1%nat)) /\
  exists ok, dict_get "success" (results (finish clock r s)) = Some (VBool ok).
Proof.
  unfold finish, store. split.
  - simpl. apply dict_get_set_same.
  - destruct r; simpl; eexists;
      (rewrite dict_get_set_other by discriminate); apply dict_get_set_same.
Qed.

(** C10: the report starts, before the [try] block and hence before any
    collaborator is invoked, with its identity and an empty mapping of stages;
    whatever happens inside the block, the report returned still has them,
    together with [completed_at] and [success]. *)
Theorem report_keeps_identity env clock self :
  let start := initial_state clock self in
  let report := results (run_pipeline env clock self) in
  (trace start = [] /\
   holds "build_id" (VStr (build_id self)) (results start) /\
   holds "repository" (VStr (repo_url self)) (results start) /\
   holds "branch" (VStr (branch self)) (results start) /\
   holds "started_at" (VStr (clock 0%nat)) (results start) /\
   holds "stages" (VDict []) (results start)) /\
  holds "build_id" (VStr (build_id self)) report /\
  holds "repository" (VStr (repo_url self)) report /\
  holds "branch" (VStr (branch self)) report /\
  holds "started_at" (VStr (clock 0%nat)) report /\
  has_stages report /\
  holds "completed_at" (VStr (clock 1%nat)) report /\
  exists ok, holds "success" (VBool ok) report.
Proof.
  intros start report.
  split; [repeat split | ].
  assert (Hkept : forall key v,
             key <> "stages" -> key <> "ai_summary" -> key <> "error" ->
             key <> "success" -> key <> "completed_at" ->
             holds key v (results start) -> holds key v report).
  { intros key v H1 H2 H3 H4 H5 H. subst report. unfold run_pipeline.
    pose proof (keeps_try_body _ (holds_stable key v H1 H2) env self start H) as Hk.
    fold start. destruct (try_body env self start) as [r s]. simpl in Hk.
    apply finish_keeps; assumption. }
  assert (Hstages : has_stages report).
  { subst report. unfold run_pipeline.
    pose proof (keeps_try_body _ has_stages_stable env self start) as Hk.
    fold start. destruct (try_body env self start) as [r s]. simpl in Hk.
    apply finish_keeps_stages. apply Hk. exists []. reflexivity. }
  assert (Hend : holds "completed_at" (VStr (clock 1%nat)) report /\
                 exists ok, holds "success" (VBool ok) report).
  { subst report. unfold run_pipeline. fold start.
    destruct (try_body env self start) as [r s]. apply finish_sets. }
  repeat split; try (apply Hkept; [discriminate .. | reflexivity]);
    try exact Hstages; apply Hend.
Qed.

(** ** Determinism *)

(** C9: two runs on the same repository and branch, with collaborators whose
    outputs do not depend on where the repository was cloned nor, for the
    summary, on the build identifier and the timestamps of the report they
    are shown, return reports that are equal once [build_id], [started_at]
    and [completed_at] are set aside. *)
Theorem report_determined_by_collaborators env clock1 clock2 self1 self2 :
  repo_url self1 = repo_url self2 ->
  branch self1 = branch self2 ->
  (forall m p1 p2, takes_path m = true -> env m [VStr p1] = env m [VStr p2]) ->
  (forall r1 r2, without volatile r1 = without volatile r2 ->
                 env GenerateBuildSummary [VDict r1]
                 = env GenerateBuildSummary [VDict r2]) ->
  without volatile (results (run_pipeline env clock1 self1))
  = without volatile (results (run_pipeline env clock2 self2)).
Proof.
  intros Hrepo Hbranch Hpath Hsummary.
  destruct self1 as [url1 br1 reg1 id1], self2 as [url2 br2 reg2 id2].
  simpl in Hrepo, Hbranch. subst url2 br2.
  destruct (run_pipeline env clock1 _) as [rep1 tr1] eqn:E1.
  destruct (run_pipeline env clock2 _) as [rep2 tr2] eqn:E2.
  unfold_run E1. unfold_run E2. cbn in E1. cbn in E2.
  set (path1 := clone_repository (Pipeline url1 br1 reg1 id1)) in E1.
  set (path2 := clone_repository (Pipeline url1 br1 reg2 id2)) in E2.
  clearbody path1 path2.
  repeat (cbn in E1; cbn in E2;
          try rewrite (Hpath Analyze path2 path1 eq_refl) in E2;
          try rewrite (Hpath Scan path2 path1 eq_refl) in E2;
          try rewrite (Hpath RunTests path2 path1 eq_refl) in E2;
          try rewrite (Hpath GetRecentChanges path2 path1 eq_refl) in E2;
          try rewrite (Hpath FindIacFiles path2 path1 eq_refl) in E2;
          try rewrite (Hpath CreateDeploymentPlan path2 path1 eq_refl) in E2;
          try match type of E2 with
            | context [env GenerateBuildSummary [VDict ?r2]] =>
                match type of E1 with
                | context [env GenerateBuildSummary [VDict ?r1]] =>
                    rewrite (Hsummary r2 r1 eq_refl) in E2
                end
            end;
          match type of E1 with
          | context [match (if ?b then _ else _) with Ok _ => _ | Raise _ => _ end] =>
              destruct b eqn:?
          | context [match ?X with Ok _ => _ | Raise _ => _ end] => destruct X eqn:?
          | context [if ?b then _ else _] => destruct b eqn:?
          end).
  all: cbn in E1; cbn in E2; injection E1 as <- <-; injection E2 as <- <-.
  all: reflexivity.
Qed.

Lemma report_determined_by_collaborators_witness :
  without volatile
    (results (run_pipeline Doubles.with_iac Doubles.demo_clock Doubles.demo))
  = without volatile
      (results (run_pipeline Doubles.with_iac
                  (fun n => match n with
                            | O => "2024-02-02T08:00:00.000000"
                            | S _ => "2024-02-02T08:10:00.000000"
                            end)
                  (init "https://github.com/marqeta/example-service" "main"
                        "eu-west-1" "20240202-080000"))).
Proof.
  apply report_determined_by_collaborators;
    [reflexivity | reflexivity | intros m p1 p2 _; reflexivity
    | intros r1 r2 _; reflexivity].
Defined.

(** ** Order and data flow of a run *)



(** X2: the stages of a report appear in the order of the pipeline, and a
    later stage is never recorded without the three analysis stages before
    it. *)
Theorem stages_recorded_in_pipeline_order env clock self :
  In (stage_names (results (run_pipeline env clock self)))
     [ [];
       ["code_analysis"];
       ["code_analysis"; "security_scan"];
       ["code_analysis"; "security_scan"; "testing"];
       ["code_analysis"; "security_scan"; "testing"; "infrastructure_validation"];
       ["code_analysis"; "security_scan"; "testing"; "deployment"];
       ["code_analysis"; "security_scan"; "testing"; "infrastructure_validation";
        "deployment"] ].
Proof.
  destruct (run_pipeline env clock self) as [rep tr] eqn:E.
  run_cases E; cbn; tauto.
Qed.

(** X3: the report has the same eight keys on every path, in the same order;
    the sixth is [ai_summary] when the run succeeded, holding what the summary
    call returned, and [error] when it did not. *)
Theorem report_has_eight_keys env clock self :
  exists ok,
    dict_get "success" (results (run_pipeline env clock self)) = Some (VBool ok) /\
    keys (results (run_pipeline env clock self)) =
      ["build_id"; "repository"; "branch"; "started_at"; "stages";
       (if ok then "ai_summary" else "error"); "success"; "completed_at"] /\
    (ok = true ->
     exists summary,
       returned GenerateBuildSummary (trace (run_pipeline env clock self))
         = Some (Ok summary) /\
       dict_get "ai_summary" (results (run_pipeline env clock self)) = Some summary).
Proof.
  destruct (run_pipeline env clock self) as [rep tr] eqn:E.
  run_cases E; cbn;
    first [ exists false; repeat split; discriminate
          | exists true; repeat split; eexists; split; reflexivity ].
Qed.

Ltac give_evidence :=
  repeat eexists;
  repeat match goal with |- _ /\ _ => split end;
  cbn; first [ reflexivity | eassumption ].

(** X4: [deploy] is never invoked without an approval: the test results had a
    truthy ["passed"], a deployment plan was created and is what [deploy] is
    handed, and the risk assessment carried a level that compared [<= 3]. *)
Theorem deploy_requires_approval env clock self :
  calls Deploy (trace (run_pipeline env clock self)) <> 0%nat ->
  exists t p plan a v,
    returned RunTests (trace (run_pipeline env clock self)) = Some (Ok t) /\
    getitem t "passed" = Ok p /\
    truthy p = true /\
    returned CreateDeploymentPlan (trace (run_pipeline env clock self))
      = Some (Ok plan) /\
    arguments Deploy (trace (run_pipeline env clock self)) = Some [plan] /\
    returned AssessDeploymentRisks (trace (run_pipeline env clock self))
      = Some (Ok a) /\
    getitem a "risk_level" = Ok v /\
    le_int v 3 = Ok true.
Proof.
  destruct (run_pipeline env clock self) as [rep tr] eqn:E.
  run_cases E; cbn; intros H; try (exfalso; apply H; reflexivity);
    give_evidence.
Qed.

Lemma deploy_requires_approval_witness :
  exists t p plan a v,
    returned RunTests (trace (run_pipeline Doubles.clean Doubles.demo_clock Doubles.demo))
      = Some (Ok t) /\
    getitem t "passed" = Ok p /\
    truthy p = true /\
    returned CreateDeploymentPlan
      (trace (run_pipeline Doubles.clean Doubles.demo_clock Doubles.demo))
      = Some (Ok plan) /\
    arguments Deploy (trace (run_pipeline Doubles.clean Doubles.demo_clock Doubles.demo))
      = Some [plan] /\
    returned AssessDeploymentRisks
      (trace (run_pipeline Doubles.clean Doubles.demo_clock Doubles.demo))
      = Some (Ok a) /\
    getitem a "risk_level" = Ok v /\
    le_int v 3 = Ok true.
Proof.
  apply (deploy_requires_approval Doubles.clean Doubles.demo_clock Doubles.demo).
  vm_compute. discriminate.
Defined.

(** X5: once the first four stages are through, the gate looks at nothing but
    the ["passed"] value recorded for the tests: a deployment plan is created
    when it is truthy and not otherwise, whatever analysis, scan and
    infrastructure validation recorded. *)
Theorem gate_opens_on_passed_tests_alone env clock self files p :
  returned FindIacFiles (trace (run_pipeline env clock self)) = Some (Ok files) ->
  (truthy files = true ->
   stage_entry "infrastructure_validation" (results (run_pipeline env clock self))
     <> None) ->
  stage_field "testing" "passed" (results (run_pipeline env clock self)) = Some p ->
  calls CreateDeploymentPlan (trace (run_pipeline env clock self))
    = if truthy p then 1%nat else 0%nat.
Proof.
  destruct (run_pipeline env clock self) as [rep tr] eqn:E.
  run_cases E; cbn; intros Hfiles Hinfra Hp; try discriminate;
    same_outcome;
    try (exfalso; apply Hinfra; [assumption | reflexivity]);
    repeat match goal with
      | H : truthy ?x = _ |- context [truthy ?x] => rewrite H
      end;
    try reflexivity; congruence.
Qed.

Lemma gate_opens_on_passed_tests_alone_witness :
  stage_field "infrastructure_validation" "valid"
    (results (run_pipeline Scenarios.invalid_infrastructure Doubles.demo_clock
                Doubles.demo)) = Some (VBool false) /\
  calls CreateDeploymentPlan
    (trace (run_pipeline Scenarios.invalid_infrastructure Doubles.demo_clock
              Doubles.demo)) = 1%nat.
Proof.
  split; [reflexivity | ].
  apply (gate_opens_on_passed_tests_alone
           Scenarios.invalid_infrastructure Doubles.demo_clock Doubles.demo
           (VList [VStr "main.tf"]) (VInt 42));
    [reflexivity | intros _; vm_compute; discriminate | reflexivity].
Defined.

(** X6: the assistant is shown what the stage produced: the issues the
    analyzer returned, the findings the scanner returned, the recent changes
    with the test results, and the IaC files that were found (non-empty, or
    the call is not made). *)
Theorem assistant_sees_stage_outputs env clock self :
  (forall args,
     arguments GetCodeImprovements (trace (run_pipeline env clock self)) = Some args ->
     exists code_issues,
       returned Analyze (trace (run_pipeline env clock self)) = Some (Ok code_issues) /\
       args = [code_issues]) /\
  (forall args,
     arguments AssessSecurityRisks (trace (run_pipeline env clock self)) = Some args ->
     exists findings,
       returned Scan (trace (run_pipeline env clock self)) = Some (Ok findings) /\
       args = [findings]) /\
  (forall args,
     arguments SuggestAdditionalTests (trace (run_pipeline env clock self))
       = Some args ->
     exists changes test_results,
       returned GetRecentChanges (trace (run_pipeline env clock self))
         = Some (Ok changes) /\
       returned RunTests (trace (run_pipeline env clock self))
         = Some (Ok test_results) /\
       args = [changes; test_results]) /\
  (forall args,
     arguments AnalyzeInfrastructureChanges (trace (run_pipeline env clock self))
       = Some args ->
     exists files,
       returned FindIacFiles (trace (run_pipeline env clock self)) = Some (Ok files) /\
       truthy files = true /\
       arguments ValidateInfrastructure (trace (run_pipeline env clock self))
         = Some [files] /\
       args = [files]).
Proof.
  destruct (run_pipeline env clock self) as [rep tr] eqn:E.
  run_cases E; cbn; repeat split; intros args H; try discriminate;
    injection H as <-; give_evidence.
Qed.

(** X7: the risk assessment is made on the deployment plan that was created,
    the testing entry as it is recorded in the report, and the recorded
    infrastructure entry, or an empty dict when that stage was left out. *)
Theorem risk_assessment_sees_recorded_stages env clock self args :
  arguments AssessDeploymentRisks (trace (run_pipeline env clock self)) = Some args ->
  exists plan testing,
    returned CreateDeploymentPlan (trace (run_pipeline env clock self))
      = Some (Ok plan) /\
    stage_entry "testing" (results (run_pipeline env clock self)) = Some testing /\
    args = [plan; testing;
            match stage_entry "infrastructure_validation"
                    (results (run_pipeline env clock self)) with
            | Some infrastructure => infrastructure
            | None => VDict []
            end].
Proof.
  destruct (run_pipeline env clock self) as [rep tr] eqn:E.
  run_cases E; cbn; intros H; try discriminate;
    injection H as <-; give_evidence.
Qed.

Lemma risk_assessment_sees_recorded_stages_witness :
  exists plan testing,
    returned CreateDeploymentPlan
      (trace (run_pipeline Doubles.clean Doubles.demo_clock Doubles.demo))
      = Some (Ok plan) /\
    stage_entry "testing"
      (results (run_pipeline Doubles.clean Doubles.demo_clock Doubles.demo))
      = Some testing /\
    [VDict [("steps", VList [VStr "rollout"])];
     VDict [("passed", VInt 42); ("failed", VInt 0); ("coverage", VFloat (9 # 10));
            ("ai_test_suggestions", VDict [("tests", VList [])])];
     VDict []]
    = [plan; testing;
       match stage_entry "infrastructure_validation"
               (results (run_pipeline Doubles.clean Doubles.demo_clock Doubles.demo))
       with
       | Some infrastructure => infrastructure
       | None => VDict []
       end].
Proof.
  apply (risk_assessment_sees_recorded_stages
           Doubles.clean Doubles.demo_clock Doubles.demo).
  reflexivity.
Defined.

(** X8: every operation that works on the repository is handed the one
    directory [clone_repository] names. *)
Theorem path_operations_share_the_clone env clock self m args :
  takes_path m = true ->
  arguments m (trace (run_pipeline env clock self)) = Some args ->
  args = [VStr (clone_repository self)].
Proof.
  intros Hm.
  destruct (run_pipeline env clock self) as [rep tr] eqn:E.
  run_cases E; destruct m; try discriminate Hm; cbn; intros H;
    try discriminate; injection H as <-; reflexivity.
Qed.

Lemma path_operations_share_the_clone_witness :
  arguments CreateDeploymentPlan
    (trace (run_pipeline Doubles.clean Doubles.demo_clock Doubles.demo))
    = Some [VStr "/tmp/repo-build-20240101-120000"] /\
  [VStr "/tmp/repo-build-20240101-120000"] = [VStr (clone_repository Doubles.demo)].
Proof.
  split; [reflexivity | ].
  apply (path_operations_share_the_clone
           Doubles.clean Doubles.demo_clock Doubles.demo CreateDeploymentPlan);
    reflexivity.
Defined.

(** X9: the summary is generated from the report as it stands before the run
    is finalized: what the assistant is shown is the returned report less
    [ai_summary], [error], [success] and [completed_at]. *)
Theorem summary_sees_unfinished_report env clock self args :
  arguments GenerateBuildSummary (trace (run_pipeline env clock self)) = Some args ->
  args = [VDict (without ["ai_summary"; "error"; "success"; "completed_at"]
                   (results (run_pipeline env clock self)))].
Proof.
  destruct (run_pipeline env clock self) as [rep tr] eqn:E.
  run_cases E; cbn; intros H; try discriminate;
    injection H as <-; reflexivity.
Qed.

Lemma summary_sees_unfinished_report_witness :
  exists args,
    arguments GenerateBuildSummary
      (trace (run_pipeline Doubles.summary_down Doubles.demo_clock Doubles.demo))
      = Some args /\
    args = [VDict (without ["ai_summary"; "error"; "success"; "completed_at"]
                     (results (run_pipeline Doubles.summary_down Doubles.demo_clock
                                 Doubles.demo)))].
Proof.
  eexists. split; [reflexivity | ].
  apply (summary_sees_unfinished_report
           Doubles.summary_down Doubles.demo_clock Doubles.demo).
  reflexivity.
Defined.

(** ** The gate expression *)

(** X10: over stage entries, which are dicts, the gate's [all(...)] never
    raises and holds exactly when no entry has a falsy ["passed"]; an entry
    without the key counts as passed. *)
Theorem all_passed_reads_passed_only (entries : list dict) :
  all_passed (map VDict entries) = Ok (forallb entry_passes entries).
Proof.
  induction entries as [| entry entries IH]; simpl.
  - reflexivity.
  - unfold entry_passes at 1.
    destruct (dict_get "passed" entry) as [p | ]; simpl.
    + destruct (truthy p); [exact IH | reflexivity].
    + exact IH.
Qed.

(** When the comparison [risk_level <= 3] itself raises, the exception ends
    the [try] block before either branch. *)
Lemma blocked_when_comparison_raises env clock self a v e :
  returned AssessDeploymentRisks (trace (run_pipeline env clock self)) = Some (Ok a) ->
  getitem a "risk_level" = Ok v ->
  le_int v 3 = Raise e ->
  calls Deploy (trace (run_pipeline env clock self)) = 0%nat /\
  stage_entry "deployment" (results (run_pipeline env clock self)) = None /\
  dict_get "success" (results (run_pipeline env clock self)) = Some (VBool false) /\
  dict_get "error" (results (run_pipeline env clock self)) = Some (VStr (exn_str e)).
Proof.
  intros Hret Hrisk Hle. revert Hret.
  destruct (run_pipeline env clock self) as [rep tr] eqn:E.
  run_cases E; close_path;
    repeat (match goal with
            | H : ?x = _, H' : ?x = _ |- _ => rewrite H in H'
            end; same_outcome);
    try discriminate; auto.
Qed.

(** X11: a risk level that is not a number (text, None, a list, a dict) does
    not pass the gate: the comparison raises a TypeError, [deploy] is not
    invoked, no deployment entry is recorded and the run fails with the
    TypeError as its error. *)
Theorem non_numeric_risk_blocks_deployment env clock self a v :
  returned AssessDeploymentRisks (trace (run_pipeline env clock self)) = Some (Ok a) ->
  getitem a "risk_level" = Ok v ->
  numeric v = false ->
  calls Deploy (trace (run_pipeline env clock self)) = 0%nat /\
  stage_entry "deployment" (results (run_pipeline env clock self)) = None /\
  dict_get "success" (results (run_pipeline env clock self)) = Some (VBool false) /\
  dict_get "error" (results (run_pipeline env clock self)) =
    Some (VStr ("'<=' not supported between instances of '"
                  ++ type_name v ++ "' and 'int'")).
Proof.
  intros Hret Hrisk Hv.
  apply (blocked_when_comparison_raises env clock self a v
           (TypeError ("'<=' not supported between instances of '"
                         ++ type_name v ++ "' and 'int'")) Hret Hrisk).
  destruct v; try discriminate Hv; reflexivity.
Qed.

Lemma non_numeric_risk_blocks_deployment_witness :
  let run := run_pipeline Scenarios.textual_risk Doubles.demo_clock Doubles.demo in
  calls Deploy (trace run) = 0%nat /\
  stage_entry "deployment" (results run) = None /\
  dict_get "success" (results run) = Some (VBool false) /\
  dict_get "error" (results run) =
    Some (VStr "'<=' not supported between instances of 'str' and 'int'").
Proof.
  apply (non_numeric_risk_blocks_deployment
           Scenarios.textual_risk Doubles.demo_clock Doubles.demo
           (VDict [("risk_level", VStr "low")]) (VStr "low")); reflexivity.
Defined.

(** X12: a stage entry, once recorded, is not assigned again, and the report
    returned holds each entry as it was assigned. *)
Theorem stage_entries_written_once env clock self (name : string) :
  (List.length (stage_writes name (trace (run_pipeline env clock self))) <= 1)%nat /\
  stage_entry name (results (run_pipeline env clock self))
    = List.hd_error (stage_writes name (trace (run_pipeline env clock self))).
Proof.
  destruct (run_pipeline env clock self) as [rep tr] eqn:E.
  run_cases E; cbn;
    repeat match goal with
      | |- context [String.eqb name ?s] =>
          destruct (String.eqb_spec name s); [subst name; cbn | ]
      end;
    cbn; split; first [ lia | reflexivity ].
Qed.

(** ** Where the repository is cloned *)

(** X13: the clone directory is derived from the build stamp alone: two
    pipelines clone into the same directory exactly when they were created
    within the same second, whatever their repositories and branches. *)
Theorem clone_directory_follows_stamp r1 b1 g1 s1 r2 b2 g2 s2 :
  clone_repository (init r1 b1 g1 s1) = clone_repository (init r2 b2 g2 s2)
  <-> s1 = s2.
Proof.
  unfold clone_repository, init. simpl. split.
  - intros H. injection H as H. exact H.
  - intros ->. reflexivity.
Qed.

(** ** The script *)


(** X15: a summary that is not a dict makes the second [print] of the script
    raise an AttributeError, after a run that succeeded. *)
Theorem script_fails_on_non_dict_summary env clock self summary :
  returned GenerateBuildSummary (trace (run_pipeline env clock self))
    = Some (Ok summary) ->
  (forall d, summary <> VDict d) ->
  main_verdict (results (run_pipeline env clock self)) = Ok "✅ SUCCESS" /\
  main_summary (results (run_pipeline env clock self)) =
    Raise (AttributeError
             ("'" ++ type_name summary ++ "' object has no attribute 'get'")).
Proof.
  intros Hret Hnot. revert Hret.
  destruct (run_pipeline env clock self) as [rep tr] eqn:E.
  run_cases E; unfold main_verdict, main_summary; cbn; intros Hret;
    try discriminate; same_outcome; split; try reflexivity;
    destruct summary; try reflexivity;
    exfalso; eapply Hnot; reflexivity.
Qed.

Lemma script_fails_on_non_dict_summary_witness :
  let report :=
    results (run_pipeline Scenarios.plain_summary Doubles.demo_clock Doubles.demo) in
  main_verdict report = Ok "✅ SUCCESS" /\
  main_summary report =
    Raise (AttributeError "'str' object has no attribute 'get'").
Proof.
  apply (script_fails_on_non_dict_summary
           Scenarios.plain_summary Doubles.demo_clock Doubles.demo
           (VStr "All stages passed."));
    [reflexivity | intros d; discriminate].
Defined.

(** ** The pipeline with the assistant of [main.py] *)

Lemma len_zero_iff_falsy (v : value) (n : Z) :
  py_len v = Ok (VInt n) -> (n =? 0)%Z = negb (truthy v).
Proof.
  destruct v as [ | | | | s | xs | kvs]; simpl; intros H; try discriminate;
    injection H as <-.
  - destruct s; reflexivity.
  - destruct xs; reflexivity.
  - destruct kvs; reflexivity.
Qed.


(** X17: what the file's assistant records for the first two stages follows
    the counts alone: no suggestions and risk level 0 when the count is 0, the
    same two suggestions and risk level 2 for any other count. *)
Theorem shipped_assistant_answers_by_count json components clock self :
  let report := results (run_pipeline (AIAssistant.shipped json components) clock self) in
  (forall n,
     stage_field "code_analysis" "issues_found" report = Some (VInt n) ->
     stage_field "code_analysis" "ai_suggestions" report =
       Some (VDict [("suggestions",
                     VList (if (n =? 0)%Z then []
                            else [VStr "Implement error handling for API calls";
                                  VStr "Add input validation"]))])) /\
  (forall n,
     stage_field "security_scan" "vulnerabilities" report = Some (VInt n) ->
     exists assessment,
       stage_field "security_scan" "ai_risk_assessment" report = Some assessment /\
       getitem assessment "risk_level" = Ok (VInt (if (n =? 0)%Z then 0 else 2))).
Proof.
  intros report. subst report.
  destruct (run_pipeline _ clock self) as [rep tr] eqn:E.
  run_cases E; cbn; split; intros n H; try discriminate;
    injection H as H; subst;
    repeat match goal with
      | H : py_len ?v = Ok (VInt ?n) |- context [(?n =? 0)%Z] =>
          rewrite (len_zero_iff_falsy v n H)
      end;
    repeat match goal with
      | H : AIAssistant.get_code_improvements _ ?v = Ok _ |- _ =>
          unfold AIAssistant.get_code_improvements in H;
          destruct (negb (truthy v)); cbn in H; injection H as <-
      | H : AIAssistant.assess_security_risks _ ?v = Ok _ |- _ =>
          unfold AIAssistant.assess_security_risks in H;
          destruct (negb (truthy v)); cbn in H; injection H as <-
      end;
    first [ reflexivity | eexists; split; reflexivity ].
Qed.
